(** * The data dictionary generator of the EMR repository

    A shallow embedding of [src/Code/DataDictionary.hpp]: the column type
    inference [inferType], its helper [isValidDate], and the sheet script
    [createDataDictionary] that profiles the sheet "EMR_Data" into the sheet
    "Data Dictionary".

    The script is written against a spreadsheet host: cell values are
    strings, numbers, booleans or date objects, told apart by their runtime
    tag; [new Date(str)], number printing and the identity of date objects
    belong to the host and are taken as an interface ([Host]). *)

From Stdlib Require Import ZArith Ascii Bool Lia DecimalString.
From Stdlib Require String.
From stdpp Require Import base decidable option list strings gmap.

(** ** The host interface *)

(** What the script uses from its runtime and cannot itself decide.
    [Number] stands for the numeric cell values up to the equality a [Set]
    uses on them; [DateObject] for date objects, which a [Set] and [===]
    compare by identity, whatever date they hold: [Date_getTime d] is the
    time value held by the object [d]. [Date_parse str] is the time value of
    [new Date(str)], [None] when that time value is NaN: outside the ISO
    format the language leaves the accepted texts to the implementation. *)
Class Host := {
  Number : Type;
  Number_eq_dec :: EqDecision Number;
  NumberOfNat : nat -> Number;
  NumberToString : Number -> string;
  DateObject : Type;
  DateObject_eq_dec :: EqDecision DateObject;
  DateToString : DateObject -> string;
  Date_getTime : DateObject -> Z;
  Date_parse : string -> option Z
}.

(** ** Text helpers of the language *)

(** Texts are sequences of code units below 256. *)
Module Text.

Definition code (c : ascii) : nat := nat_of_ascii c.

Definition between (lo hi n : nat) : bool := (lo <=? n) && (n <=? hi).

(** [String.prototype.toLowerCase] on one code unit (units 0..255). *)
Definition lowerChar (c : ascii) : ascii :=
  let n := code c in
  if between 65 90 n || (between 192 222 n && negb (n =? 215))
  then ascii_of_nat (n + 32)
  else c.

Fixpoint toLowerCase (s : string) : string :=
  match s with
  | EmptyString => EmptyString
  | String c r => String (lowerChar c) (toLowerCase r)
  end.

(** White space and line terminators that [parseFloat] skips. *)
Definition isStrWhiteSpaceChar (c : ascii) : bool :=
  let n := code c in
  between 9 13 n || (n =? 32) || (n =? 160).

Fixpoint trimStart (s : string) : string :=
  match s with
  | EmptyString => EmptyString
  | String c r => if isStrWhiteSpaceChar c then trimStart r else s
  end.

Definition isDigit (c : ascii) : bool := between 48 57 (code c).

Definition dropSign (s : string) : string :=
  match s with
  | String c r => if (code c =? 43) || (code c =? 45) then r else s
  | EmptyString => s
  end.

(** Does [s] begin with a decimal literal: [Infinity], a digit, or a dot
    followed by a digit. *)
Definition startsDecimalLiteral (s : string) : bool :=
  String.prefix "Infinity" s ||
  match s with
  | String c r =>
      isDigit c ||
      ((code c =? 46) && match r with String d _ => isDigit d | EmptyString => false end)
  | EmptyString => false
  end.

(** [isNaN(parseFloat(s))]: [parseFloat] skips leading white space and
    reads the longest prefix that is a signed decimal literal; the result
    is NaN exactly when there is no such prefix. *)
Definition isNaN_parseFloat (s : string) : bool :=
  negb (startsDecimalLiteral (dropSign (trimStart s))).

(** [Array.prototype.includes] on an array of strings. *)
Definition includes (l : list string) (s : string) : bool :=
  existsb (String.eqb s) l.

End Text.

(** How a script step ends: with a value, or with a thrown error message. *)
Inductive Outcome (A : Type) : Type :=
| Returned (a : A)
| Thrown (msg : string).
Arguments Returned {A} a.
Arguments Thrown {A} msg.

Section Dictionary.

Context `{host : Host}.

(** ** Cell values *)

(** A raw cell value with its runtime tag. [VNull] is the absent marker
    the script tests for, [VUndefined] what indexing a row past its end
    yields. *)
Inductive Value : Type :=
| VString (s : string)
| VNumber (x : Number)
| VBoolean (b : bool)
| VDate (d : DateObject)
| VNull
| VUndefined.

#[export] Instance Value_eq_dec : EqDecision Value.
Proof. solve_decision. Defined.

(** ** isValidDate *)

Definition isValidDate (str : string) : bool :=
  match Date_parse str with
  | Some _ => true
  | None => false
  end.

(** ** inferType *)

(** The three hypotheses of the loop. *)
Record Flags : Type := mkFlags { isNum : bool; isDate : bool; isBool : bool }.

Definition allTrue : Flags := mkFlags true true true.

Definition booleanWords : list string := ["true"; "false"; "yes"; "no"].

(** One pass of the loop body over the value [v]. The branches are the
    three tag tests of the source, in order; a value with any other tag
    (boolean, null, undefined) takes none of them. *)
Definition inspect (f : Flags) (v : Value) : Flags :=
  match v with
  | VString s =>
      let isDate' := if negb (isValidDate s) then false else isDate f in
      let isBool' :=
        if negb (Text.includes booleanWords (Text.toLowerCase s))
        then false else isBool f in
      let isNum' := if Text.isNaN_parseFloat s then false else isNum f in
      mkFlags isNum' isDate' isBool'
  | VNumber _ => mkFlags (isNum f) (isDate f) false
  | VDate _ => mkFlags false (isDate f) false
  | VBoolean _ | VNull | VUndefined => f
  end.

Definition inspectAll (values : list Value) : Flags :=
  fold_left inspect values allTrue.

(** [inferType values]: [None] is the bare [return;] taken on an empty
    input, which hands no type name back to the caller. *)
Definition inferType (values : list Value) : option string :=
  match values with
  | [] => None
  | _ :: _ =>
      let f := inspectAll values in
      if isDate f then Some "Date"
      else if isNum f then Some "Numeric"
      else if isBool f then Some "Boolean"
      else Some "String"
  end.


(** ** The column statistics *)

(** A row is a list of cells, a grid a list of rows. *)
Local Abbreviation Row := (list Value).
Local Abbreviation Sheet := (list (list Value)).

(** [a.slice(b, e)] for [0 <= b <= e]: the elements at the positions
    [b], ..., [e - 1] that exist. *)
Definition slice {A : Type} (b e : nat) (l : list A) : list A :=
  take (e - b) (drop b l).

(** [r[col]]: reading past the end of a row yields [undefined]. *)
Definition cell (col : nat) (r : Row) : Value := default VUndefined (r !! col).

Definition columnValues (rows : Sheet) (col : nat) : list Value :=
  map (cell col) rows.

(** The test of the filter: [v !== "" && v !== null]. *)
Definition nonEmpty (values : list Value) : list Value :=
  filter (fun v => v <> VString "" /\ v <> VNull) values.

(** A [Set] keeps its members in insertion order, and adding a member it
    already holds changes nothing. *)
Definition Set_add (s : list Value) (v : Value) : list Value :=
  if decide (v ∈ s) then s else s ++ [v].

Definition new_Set (values : list Value) : list Value :=
  fold_left Set_add values [].

(** The text [join] uses for one element: null and undefined give the empty
    text. *)
Definition joinText (v : Value) : string :=
  match v with
  | VString s => s
  | VNumber x => NumberToString x
  | VBoolean true => "true"
  | VBoolean false => "false"
  | VDate d => DateToString d
  | VNull | VUndefined => ""
  end.

Definition join (sep : string) (values : list Value) : string :=
  String.concat sep (map joinText values).

(** [[...new Set(nonEmpty)].slice(0, 10)], the sequence that is then joined
    into the last cell of the row. *)
Definition uniqueList (values : list Value) : list Value :=
  slice 0 10 (new_Set values).

(** The text of the last cell: the sample joined by ", ". *)
Definition uniqueValues (values : list Value) : string :=
  join ", " (uniqueList values).

Definition missingCount (rows : Sheet) (col : nat) : nat :=
  length (columnValues rows col) - length (nonEmpty (columnValues rows col)).

Definition dataTypeCell (values : list Value) : Value :=
  match inferType values with
  | Some t => VString t
  | None => VUndefined
  end.

Definition exampleCell (values : list Value) : Value :=
  match values with
  | [] => VString ""
  | v :: _ => v
  end.

(** The row the loop body appends for the column [col] named [header]. *)
Definition dictRow (rows : Sheet) (header : Value) (col : nat) : Row :=
  let values := nonEmpty (columnValues rows col) in
  [ header;
    dataTypeCell values;
    VString "";
    exampleCell values;
    VNumber (NumberOfNat (missingCount rows col));
    VString (uniqueValues values) ].

(** ** The sheet script *)

(** The workbook maps sheet names to their grids of values; a sheet handle
    is the name of the sheet. A script step returns or throws, and leaves
    the workbook as it is at that point. *)
Definition Script (A : Type) : Type :=
  gmap string Sheet -> Outcome A * gmap string Sheet.

#[export] Instance Script_ret : MRet Script :=
  fun A a ss => (Returned a, ss).

#[export] Instance Script_bind : MBind Script :=
  fun A B k c ss =>
    match c ss with
    | (Returned a, ss') => k a ss'
    | (Thrown msg, ss') => (Thrown msg, ss')
    end.

Definition throw {A : Type} (msg : string) : Script A :=
  fun ss => (Thrown msg, ss).

Definition getSheetByName (name : string) : Script (option string) :=
  fun ss =>
    (Returned (match ss !! name with Some _ => Some name | None => None end), ss).

Definition getValues (sheet : string) : Script Sheet :=
  fun ss => (Returned (default [] (ss !! sheet)), ss).

Definition insertSheet (name : string) : Script string :=
  fun ss => (Returned name, <[name := []]> ss).

Definition clear (sheet : string) : Script unit :=
  fun ss => (Returned tt, alter (fun _ => []) sheet ss).

Definition appendRow (sheet : string) (row : Row) : Script unit :=
  fun ss => (Returned tt, alter (fun grid => grid ++ [row]) sheet ss).

(** [l.forEach((x, i) => f x i)], the index counted from [i]. *)
Fixpoint forEachFrom {A : Type} (i : nat) (f : A -> nat -> Script unit)
    (l : list A) : Script unit :=
  match l with
  | [] => mret tt
  | x :: l' => f x i ;; forEachFrom (S i) f l'
  end.

Definition forEach {A : Type} (f : A -> nat -> Script unit) (l : list A) :
    Script unit :=
  forEachFrom 0 f l.

Definition sourceSheetName : string := "EMR_Data".
Definition dictSheetName : string := "Data Dictionary".
Definition SAMPLE_ROWS : nat := 10.

Definition dictHeaders : Row :=
  map VString
    [ "Field Name"; "Data Type"; "Description"; "Example Value";
      "Missing Count"; "Unique Values (sample)" ].

(** [data[0]] and [data.slice(1, 1 + SAMPLE_ROWS)]: the header row and the
    rows the script samples. *)
Definition headersOf (data : Sheet) : Row := default [] (data !! 0).
Definition sampledRows (data : Sheet) : Sheet := slice 1 (1 + SAMPLE_ROWS) data.

(** The logging calls and the final column resizing leave every grid as it
    is and are not part of the model. *)
Definition createDataDictionary : Script unit :=
  source ← getSheetByName sourceSheetName;
  match source with
  | None => throw ("Source sheet not found: " +:+ sourceSheetName)
  | Some source =>
      data ← getValues source;
      if length data <? 2 then throw "Data sheet has no rows."
      else
        let headers := headersOf data in
        let rows := sampledRows data in
        found ← getSheetByName dictSheetName;
        dict ← match found with
               | None => insertSheet dictSheetName
               | Some dict => clear dict ;; mret dict
               end;
        appendRow dict dictHeaders ;;
        forEach (fun header col => appendRow dict (dictRow rows header col))
                headers
  end.

(** ** Reference definitions for the statements *)

(** What one value leaves of each hypothesis. *)
Definition dateOk (v : Value) : bool :=
  match v with
  | VString s => isValidDate s
  | _ => true
  end.

Definition numOk (v : Value) : bool :=
  match v with
  | VString s => negb (Text.isNaN_parseFloat s)
  | VDate _ => false
  | _ => true
  end.

Definition boolOk (v : Value) : bool :=
  match v with
  | VString s => Text.includes booleanWords (Text.toLowerCase s)
  | VNumber _ | VDate _ => false
  | _ => true
  end.

(** Deduplication under the equality of a [Set] (texts, numbers and
    booleans by value, date objects by identity) that keeps each value
    where it is first seen. *)
Fixpoint firstSeen (values : list Value) : list Value :=
  match values with
  | [] => []
  | v :: rest => v :: filter (fun w => w <> v) (firstSeen rest)
  end.

(** Value equality: two date values are the same when they hold the same
    time value, whichever objects carry them; other values when they are
    equal. *)
Definition sameValue (v w : Value) : Prop :=
  match v, w with
  | VDate d, VDate e => Date_getTime d = Date_getTime e
  | _, _ => v = w
  end.

#[export] Instance sameValue_dec (v w : Value) : Decision (sameValue v w).
Proof. destruct v, w; simpl; apply _. Defined.

(** Deduplication by value equality that keeps each value where it is first
    seen. *)
Fixpoint distinctValues (values : list Value) : list Value :=
  match values with
  | [] => []
  | v :: rest => v :: filter (fun w => ~ sameValue w v) (distinctValues rest)
  end.

(** The missing-value rule: the empty text or the absent marker. *)
Definition isMissing (v : Value) : Prop := v = VString "" \/ v = VNull.

#[export] Instance isMissing_dec (v : Value) : Decision (isMissing v).
Proof. unfold isMissing. apply _. Defined.

(** The cell [k] of the row written for the column [col], in the workbook
    [ss]. *)
Definition dictCell (ss : gmap string Sheet) (col k : nat) : option Value :=
  grid ← ss !! dictSheetName; row ← grid !! S col; row !! k.

(** The data set of the sign-up scenario: three columns, three rows, all
    cells textual. *)
Definition signupData : Sheet :=
  map (map VString)
    [ ["id"; "signup_date"; "active"];
      ["1"; "2024-01-05"; "yes"];
      ["2"; "not-a-date"; "no"];
      ["3"; "2024-03-10"; "maybe"] ].

Definition signupWorkbook : gmap string Sheet :=
  {[ sourceSheetName := signupData ]}.

(** A one-column data set with a repeated value and an empty cell, and one
    with a header row only. *)
Definition codesData : Sheet :=
  map (map VString) [ ["code"]; ["a"]; ["b"]; ["a"]; [""]; ["c"] ].

Definition codesWorkbook : gmap string Sheet :=
  {[ sourceSheetName := codesData ]}.

Definition headerOnlyWorkbook : gmap string Sheet :=
  {[ sourceSheetName := [map VString ["id"; "signup_date"; "active"]] ]}.

End Dictionary.

Abbreviation Row := (list Value).
Abbreviation Sheet := (list (list Value)).

(** ** Two hosts *)

(** Date texts in the date-only form [YYYY-MM-DD] of the ISO format, the
    part of [Date.parse] every implementation shares. *)
Module IsoDate.

Fixpoint digitsValue (acc : nat) (s : string) : option nat :=
  match s with
  | EmptyString => Some acc
  | String c r =>
      if Text.isDigit c
      then digitsValue (10 * acc + (Text.code c - 48)) r
      else None
  end.

(** The value of a non-empty run of decimal digits. *)
Definition number (s : string) : option nat :=
  match s with
  | EmptyString => None
  | String _ _ => digitsValue 0 s
  end.

Definition isLeap (y : Z) : bool :=
  ((y mod 4 =? 0) && negb (y mod 100 =? 0) || (y mod 400 =? 0))%Z.

Definition daysInMonth (y m : Z) : Z :=
  (if m =? 2 then (if isLeap y then 29 else 28)
   else if (m =? 4) || (m =? 6) || (m =? 9) || (m =? 11) then 30
   else 31)%Z.

(** Days from 1970-01-01 to the civil date [y]-[m]-[d]. *)
Definition daysFromCivil (y m d : Z) : Z :=
  (let y' := if m <=? 2 then y - 1 else y in
   let era := y' / 400 in
   let yoe := y' - era * 400 in
   let mp := if 2 <? m then m - 3 else m + 9 in
   let doy := (153 * mp + 2) / 5 + d - 1 in
   let doe := yoe * 365 + yoe / 4 - yoe / 100 + doy in
   era * 146097 + doe - 719468)%Z.

Definition msPerDay : Z := 86400000.

Definition timeOf (y m d : Z) : option Z :=
  if ((1 <=? m) && (m <=? 12) && (1 <=? d) && (d <=? daysInMonth y m))%Z
  then Some (daysFromCivil y m d * msPerDay)%Z
  else None.

Definition parse (s : string) : option Z :=
  if (String.length s =? 10)
     && String.eqb (String.substring 4 1 s) "-"
     && String.eqb (String.substring 7 1 s) "-"
  then
    y ← number (String.substring 0 4 s);
    m ← number (String.substring 5 2 s);
    d ← number (String.substring 8 2 s);
    timeOf (Z.of_nat y) (Z.of_nat m) (Z.of_nat d)
  else None.

(** A parser that, past the ISO format, also reads a lone month number
    [1] .. [12] as the first day of that month of 2001, the way the V8
    engine does. *)
Definition parseWithMonthNumbers (s : string) : option Z :=
  match parse s with
  | Some t => Some t
  | None =>
      if String.length s <=? 2
      then n ← number s; timeOf 2001 (Z.of_nat n) 1
      else None
  end.

End IsoDate.

(** The decimal text of an integer. *)
Definition decimal (z : Z) : string := NilZero.string_of_int (Z.to_int z).

(** A host with integer numbers and numbered date objects, each holding a
    time value and printed by it, around the date parser [dateParse]. *)
Definition hostWith (dateParse : string -> option Z) : Host :=
  {| Number := Z;
     NumberOfNat := Z.of_nat;
     NumberToString := decimal;
     DateObject := nat * Z;
     DateToString := fun d => "T" +:+ decimal d.2;
     Date_getTime := fun d => d.2;
     Date_parse := dateParse |}.

Definition isoHost : Host := hostWith IsoDate.parse.
Definition monthNumberHost : Host := hostWith IsoDate.parseWithMonthNumbers.

(** A column of two date cells: two date objects that hold the same day,
    2024-01-05. *)
Definition visitDay : Z := 1704412800000.

Definition firstVisit : @Value isoHost := @VDate isoHost (1, visitDay).
Definition secondVisit : @Value isoHost := @VDate isoHost (2, visitDay).

Definition visitsData : list (list (@Value isoHost)) :=
  [ [VString "visit"]; [firstVisit]; [secondVisit] ].

Definition visitsWorkbook : gmap string (list (list (@Value isoHost))) :=
  {[ sourceSheetName := visitsData ]}.

(** ** Further data sets *)

Section MoreData.

Context `{host : Host}.

(** Two columns; every sampled cell of the first one is empty. *)
Definition blanksData : Sheet :=
  map (map VString) [ ["note"; "tag"]; [""; "x"]; [""; "y"] ].

Definition blanksWorkbook : gmap string Sheet :=
  {[ sourceSheetName := blanksData ]}.

(** Two headers over rows of one cell: nothing stands under the second. *)
Definition raggedData : Sheet :=
  map (map VString) [ ["a"; "b"]; ["x"]; ["y"] ].

Definition raggedWorkbook : gmap string Sheet :=
  {[ sourceSheetName := raggedData ]}.

(** The workbook of the column [code] with a dictionary sheet left over
    from an earlier run. *)
Definition staleWorkbook : gmap string Sheet :=
  <[ dictSheetName := [[VString "old"]; [VString "rows"]] ]> codesWorkbook.

(** Twelve data rows under one header, and the same grid cut after the
    tenth data row. *)
Definition longData : Sheet :=
  map (map VString)
    [ ["n"]; ["1"]; ["2"]; ["3"]; ["4"]; ["5"]; ["6"]; ["7"]; ["8"]; ["9"];
      ["10"]; ["eleven"]; ["twelve"] ].

Definition longWorkbook : gmap string Sheet :=
  {[ sourceSheetName := longData ]}.

Definition cutWorkbook : gmap string Sheet :=
  {[ sourceSheetName := take 11 longData ]}.

End MoreData.

(** * Properties *)

Section Facts.

Context `{host : Host}.

(** ** The loop of inferType *)

Lemma inspect_flags (f : Flags) (v : Value) :
  inspect f v =
  mkFlags (isNum f && numOk v) (isDate f && dateOk v) (isBool f && boolOk v).
Proof.
  destruct f as [n d b], v as [s| | | | |];
    cbn [inspect numOk dateOk boolOk isNum isDate isBool];
    rewrite ?andb_true_r, ?andb_false_r; try reflexivity.
  destruct (isValidDate s), (Text.isNaN_parseFloat s),
    (Text.includes booleanWords (Text.toLowerCase s));
    cbn [negb]; rewrite ?andb_true_r, ?andb_false_r; reflexivity.
Qed.

(** A hypothesis survives the loop exactly when no value disconfirms it. *)
Lemma fold_inspect_flags (values : list Value) (f : Flags) :
  fold_left inspect values f =
  mkFlags (isNum f && forallb numOk values)
          (isDate f && forallb dateOk values)
          (isBool f && forallb boolOk values).
Proof.
  revert f. induction values as [|v values IH]; intros f; simpl.
  - destruct f; simpl. by rewrite !andb_true_r.
  - rewrite IH, inspect_flags. simpl. by rewrite !andb_assoc.
Qed.

Lemma inspectAll_flags (values : list Value) :
  inspectAll values =
  mkFlags (forallb numOk values) (forallb dateOk values) (forallb boolOk values).
Proof. unfold inspectAll. by rewrite fold_inspect_flags. Qed.

Lemma forallb_Permutation {A : Type} (p : A -> bool) (l l' : list A) :
  l ≡ₚ l' -> forallb p l = forallb p l'.
Proof.
  induction 1 as [|x l l' _ IH|x y l|l l' l'' _ IH1 _ IH2]; simpl.
  - reflexivity.
  - by rewrite IH.
  - by destruct (p x), (p y).
  - by rewrite IH1.
Qed.

Lemma inspectAll_Permutation (l l' : list Value) :
  l ≡ₚ l' -> inspectAll l = inspectAll l'.
Proof.
  intros Hp. rewrite !inspectAll_flags.
  by rewrite (forallb_Permutation numOk _ _ Hp),
    (forallb_Permutation dateOk _ _ Hp), (forallb_Permutation boolOk _ _ Hp).
Qed.

Lemma inferType_nonempty (values : list Value) :
  values <> [] ->
  inferType values =
  Some (if isDate (inspectAll values) then "Date"
        else if isNum (inspectAll values) then "Numeric"
        else if isBool (inspectAll values) then "Boolean"
        else "String").
Proof.
  destruct values as [|v values]; [done|]. intros _. unfold inferType.
  generalize (inspectAll (v :: values)). intros [n d b]. simpl.
  by destruct n, d, b.
Qed.

(** C1, evaluated on the code: on the empty sequence [inferType] takes the
    bare [return;] and yields no type name, not "String"; the type cell of
    a column without any non-missing value is then undefined. *)
Theorem inferType_empty_returns_nothing :
  inferType [] = None /\
  inferType [] <> Some "String" /\
  dataTypeCell [] = VUndefined.
Proof. split; [reflexivity|]. split; [discriminate|reflexivity]. Qed.

(** C3: on a non-empty sequence the result is read off the final flags in
    the fixed order Date, Numeric, Boolean, String; the first surviving
    hypothesis decides. *)
Theorem inferType_precedence (values : list Value) :
  values <> [] ->
  let f := inspectAll values in
  (isDate f = true -> inferType values = Some "Date") /\
  (isDate f = false -> isNum f = true -> inferType values = Some "Numeric") /\
  (isDate f = false -> isNum f = false -> isBool f = true ->
   inferType values = Some "Boolean") /\
  (isDate f = false -> isNum f = false -> isBool f = false ->
   inferType values = Some "String").
Proof.
  intros Hne f. rewrite (inferType_nonempty values Hne). fold f.
  repeat split; intros; repeat match goal with H : _ = _ |- _ => rewrite H end;
    reflexivity.
Qed.

(** C4: [inferType] gives the same answer on every reordering of its
    input. *)
Theorem inferType_Permutation (values values' : list Value) :
  values ≡ₚ values' -> inferType values = inferType values'.
Proof.
  intros Hp. destruct values as [|v values].
  - apply Permutation_nil_l in Hp. by subst.
  - assert (values' <> []) as Hne'.
    { intros ->. by apply Permutation_nil_r in Hp. }
    rewrite (inferType_nonempty (v :: values)), (inferType_nonempty values')
      by done.
    by rewrite (inspectAll_Permutation _ _ Hp).
Qed.

(** C9: a non-empty sequence of boolean-typed values is typed "Date": no
    branch of the loop applies to them, so every hypothesis survives and
    the date case is the first to fire. *)
Theorem inferType_booleans (values : list Value) :
  values <> [] ->
  Forall (fun v => exists b, v = VBoolean b) values ->
  inspectAll values = allTrue /\ inferType values = Some "Date".
Proof.
  intros Hne Hall.
  assert (inspectAll values = allTrue) as Hflags.
  { unfold inspectAll. generalize allTrue. clear Hne.
    induction Hall as [|v values [b ->] _ IH]; intros f; simpl; [done|].
    apply IH. }
  split; [done|]. rewrite (inferType_nonempty values Hne), Hflags. done.
Qed.

(** C10: a non-empty sequence of number-typed values is typed "Date", not
    "Numeric": the number branch only clears the boolean hypothesis, so the
    date hypothesis survives and comes first. *)
Theorem inferType_numbers (values : list Value) :
  values <> [] ->
  Forall (fun v => exists x, v = VNumber x) values ->
  inspectAll values = mkFlags true true false /\
  inferType values = Some "Date" /\
  inferType values <> Some "Numeric".
Proof.
  intros Hne Hall.
  assert (inspectAll values = mkFlags true true false) as Hflags.
  { destruct Hall as [|v rest [x ->] Hrest]; [done|].
    unfold inspectAll. simpl. clear Hne.
    induction Hrest as [|w rest [y ->] _ IH]; [done|]. exact IH. }
  rewrite (inferType_nonempty values Hne), Hflags. done.
Qed.

(** ** The set of distinct values *)

Lemma filter_all {A : Type} (P : A -> Prop) `{!forall x, Decision (P x)}
    (l : list A) :
  (forall x, x ∈ l -> P x) -> filter P l = l.
Proof.
  induction l as [|x l IH]; intros HP; [done|].
  rewrite filter_cons_True by (apply HP; left).
  f_equal. apply IH. intros y Hy. apply HP. by right.
Qed.

(** The loop of insertions, from any set built so far. *)
Lemma fold_Set_add (values acc : list Value) :
  fold_left Set_add values acc =
  acc ++ filter (fun w => w ∉ acc) (firstSeen values).
Proof.
  revert acc. induction values as [|v values IH]; intros acc; simpl.
  - by rewrite filter_nil, app_nil_r.
  - rewrite IH. unfold Set_add. destruct (decide (v ∈ acc)) as [Hin|Hout].
    + rewrite filter_cons_False by (intros Hn; by apply Hn).
      f_equal. rewrite list_filter_filter. apply list_filter_iff.
      intros w. split; [|by intros [Hw _]].
      intros Hw. split; [done|]. by intros ->.
    + rewrite filter_cons_True by done. rewrite <- app_assoc. simpl.
      do 2 f_equal. rewrite list_filter_filter. apply list_filter_iff.
      intros w. by rewrite not_elem_of_app, list_elem_of_singleton.
Qed.

(** The set built by the script is the first-seen deduplication. *)
Lemma new_Set_firstSeen (values : list Value) :
  new_Set values = firstSeen values.
Proof.
  unfold new_Set. rewrite fold_Set_add. simpl. apply filter_all.
  intros x _. apply not_elem_of_nil.
Qed.

Lemma elem_of_firstSeen (values : list Value) (x : Value) :
  x ∈ firstSeen values <-> x ∈ values.
Proof.
  induction values as [|v values IH]; simpl; [done|].
  rewrite !elem_of_cons, list_elem_of_filter, IH. split.
  - intros [->|[_ Hin]]; [by left|by right].
  - intros [->|Hin]; [by left|].
    destruct (decide (x = v)) as [->|Hne]; [by left|by right].
Qed.

Lemma NoDup_firstSeen (values : list Value) : NoDup (firstSeen values).
Proof.
  induction values as [|v values IH]; simpl; [constructor|].
  apply NoDup_cons. split.
  - intros [Hne _]%list_elem_of_filter. by apply Hne.
  - by apply NoDup_filter.
Qed.

Lemma firstSeen_app (l1 l2 : list Value) :
  firstSeen (l1 ++ l2) =
  firstSeen l1 ++ filter (fun w => w ∉ l1) (firstSeen l2).
Proof.
  rewrite <- (new_Set_firstSeen (l1 ++ l2)). unfold new_Set.
  rewrite fold_left_app, (fold_Set_add l1 []), fold_Set_add. simpl.
  rewrite (filter_all _ (firstSeen l1)) by (intros x _; apply not_elem_of_nil).
  f_equal. apply list_filter_iff. intros w. by rewrite elem_of_firstSeen.
Qed.

(** Seeing more values never lowers the number of distinct ones. *)
Lemma firstSeen_take_mono (values : list Value) (p q : nat) :
  p <= q ->
  length (firstSeen (take p values)) <= length (firstSeen (take q values)).
Proof.
  intros Hpq. replace q with (p + (q - p)) by lia.
  rewrite <- take_take_drop, firstSeen_app, length_app. lia.
Qed.

(** The value at position [i] of the deduplication is first seen where
    exactly [i] distinct values have been seen before it. *)
Lemma firstSeen_lookup (values : list Value) (i : nat) (x : Value) :
  firstSeen values !! i = Some x ->
  exists p, values !! p = Some x /\ (x ∉ take p values) /\
            length (firstSeen (take p values)) = i.
Proof.
  intros Hi.
  assert (x ∈ values) as Hin.
  { apply elem_of_firstSeen. by eapply list_elem_of_lookup_2. }
  apply list_elem_of_split_l in Hin as (l1 & l2 & -> & Hout).
  exists (length l1). rewrite take_app_length.
  split; [by apply list_lookup_middle|]. split; [done|].
  eapply NoDup_lookup; [apply NoDup_firstSeen| |exact Hi].
  rewrite firstSeen_app. simpl. rewrite filter_cons_True by done.
  by apply list_lookup_middle.
Qed.

Lemma uniqueList_firstSeen (values : list Value) :
  uniqueList values = take 10 (firstSeen values).
Proof. unfold uniqueList, slice. by rewrite new_Set_firstSeen, drop_0. Qed.

(** First-seen order: of two entries of the sample, the earlier one is
    first met earlier among the values. *)
Lemma uniqueList_order (values : list Value) (i j : nat) (x y : Value) :
  i < j ->
  uniqueList values !! i = Some x ->
  uniqueList values !! j = Some y ->
  exists p q, p < q /\
    values !! p = Some x /\ (x ∉ take p values) /\
    values !! q = Some y /\ (y ∉ take q values).
Proof.
  rewrite uniqueList_firstSeen. intros Hij Hx Hy.
  apply lookup_take_Some in Hx as [Hx _], Hy as [Hy _].
  apply firstSeen_lookup in Hx as (p & Hp & Hpout & Hplen).
  apply firstSeen_lookup in Hy as (q & Hq & Hqout & Hqlen).
  exists p, q. repeat split; try done.
  destruct (decide (p < q)) as [|Hge]; [done|].
  pose proof (firstSeen_take_mono values q p ltac:(lia)). lia.
Qed.

(** A value met while fewer than ten distinct values have been seen is in
    the sample, however far down the rows it stands. *)
Lemma uniqueList_keeps (values : list Value) (p : nat) (v : Value) :
  values !! p = Some v ->
  length (firstSeen (take p values)) < 10 ->
  v ∈ uniqueList values.
Proof.
  intros Hp Hlen. rewrite uniqueList_firstSeen.
  assert (v ∈ firstSeen values) as Hin.
  { apply elem_of_firstSeen. by eapply list_elem_of_lookup_2. }
  apply list_elem_of_lookup_1 in Hin as [i Hi].
  pose proof Hi as Hi'.
  apply firstSeen_lookup in Hi' as (p' & Hp' & Hout & Hlen').
  assert (p' <= p) as Hle.
  { destruct (decide (p' <= p)) as [|Hgt]; [done|]. exfalso. apply Hout.
    apply elem_of_take. exists p. split; [done|lia]. }
  pose proof (firstSeen_take_mono values p' p Hle).
  apply elem_of_take. exists i. split; [done|lia].
Qed.

(** ** Running the script *)

Lemma appendRow_run (sheet : string) (row : Row) (ss : gmap string Sheet) :
  appendRow sheet row ss =
  (Returned tt, alter (fun grid => grid ++ [row]) sheet ss).
Proof. reflexivity. Qed.

Lemma forEachFrom_appendRow (dict : string) (g : Value -> nat -> Row)
    (l : list Value) (i : nat) (ss : gmap string Sheet) :
  forEachFrom i (fun header col => appendRow dict (g header col)) l ss =
  (Returned tt,
   alter (fun grid => grid ++ imap (fun k header => g header (i + k)) l)
         dict ss).
Proof.
  revert i ss. induction l as [|x l IH]; intros i ss.
  - simpl. unfold mret, Script_ret. f_equal. symmetry. apply alter_id.
    intros grid _. apply app_nil_r.
  - cbn [forEachFrom]. unfold mbind, Script_bind, appendRow at 1.
    rewrite IH. f_equal. rewrite alter_alter_eq. apply alter_ext.
    intros grid _. unfold compose. rewrite <- app_assoc. f_equal.
    rewrite imap_cons, Nat.add_0_r. simpl. f_equal.
    apply imap_ext. intros k y _. simpl. f_equal. lia.
Qed.

(** On a source grid with at least one data row the script returns, and
    the dictionary sheet then holds the title row followed by one row per
    header; whether that sheet existed before makes no difference. *)
Lemma createDataDictionary_returns (ss : gmap string Sheet) (data : Sheet) :
  ss !! sourceSheetName = Some data ->
  2 <= length data ->
  createDataDictionary ss =
  (Returned tt,
   <[dictSheetName :=
       dictHeaders ::
       imap (fun col header => dictRow (sampledRows data) header col)
            (headersOf data)]> ss).
Proof.
  intros Hsrc Hlen.
  cbv beta iota zeta delta [createDataDictionary mbind Script_bind
                            getSheetByName getValues].
  repeat first [rewrite Hsrc | progress cbv beta iota
               | progress cbn [from_option id]].
  destruct (Nat.ltb_spec (length data) 2) as [|_]; [lia|].
  destruct (ss !! dictSheetName) as [old|] eqn:Hdict;
    cbv beta iota delta [clear insertSheet mret Script_ret];
    rewrite appendRow_run; cbv beta iota; unfold forEach;
    rewrite forEachFrom_appendRow; f_equal; rewrite !alter_alter_eq.
  - apply map_eq. intros name.
    destruct (decide (name = dictSheetName)) as [->|Hne].
    + rewrite lookup_alter_eq, lookup_insert_eq, Hdict. reflexivity.
    + by rewrite lookup_alter_ne, lookup_insert_ne.
  - rewrite alter_insert_eq. reflexivity.
Qed.

(** The cells of the row written for a column. *)
Lemma dictCell_returns (ss : gmap string Sheet) (data : Sheet)
    (col k : nat) (header : Value) :
  ss !! sourceSheetName = Some data ->
  2 <= length data ->
  headersOf data !! col = Some header ->
  dictCell (createDataDictionary ss).2 col k =
  dictRow (sampledRows data) header col !! k.
Proof.
  intros Hsrc Hlen Hcol. rewrite (createDataDictionary_returns ss data) by done.
  unfold dictCell. cbn [snd]. rewrite lookup_insert_eq. cbn [mbind option_bind].
  change ((dictHeaders :: ?l) !! S col) with (l !! col).
  rewrite list_lookup_imap, Hcol. reflexivity.
Qed.

(** On a source grid without data rows the script throws before it touches
    the workbook. *)
Lemma createDataDictionary_throws (ss : gmap string Sheet) (data : Sheet) :
  ss !! sourceSheetName = Some data ->
  length data < 2 ->
  createDataDictionary ss = (Thrown "Data sheet has no rows.", ss).
Proof.
  intros Hsrc Hlen.
  cbv beta iota zeta delta [createDataDictionary mbind Script_bind
                            getSheetByName getValues].
  repeat first [rewrite Hsrc | progress cbv beta iota
               | progress cbn [from_option id]].
  destruct (Nat.ltb_spec (length data) 2) as [_|]; [|lia]. reflexivity.
Qed.

(** ** The claims on the dictionary *)

(** X22: under the equality of a [Set], which tells date objects apart by
    identity, the sample of distinct values behind the last cell of a row
    has at most ten entries and none twice; it is the first-seen
    deduplication of all non-missing sampled values cut to ten entries
    afterwards, its entries stand in first-seen order, and a value met
    while fewer than ten distinct values have been seen is kept whatever
    its row. The script itself samples no more than [SAMPLE_ROWS] rows. *)
Theorem uniqueValues_sample (ss : gmap string Sheet) (data : Sheet)
    (col : nat) (header : Value) :
  ss !! sourceSheetName = Some data ->
  2 <= length data ->
  headersOf data !! col = Some header ->
  let values := nonEmpty (columnValues (sampledRows data) col) in
  let uniq := uniqueList values in
  dictCell (createDataDictionary ss).2 col 5 = Some (VString (join ", " uniq)) /\
  length uniq <= 10 /\
  NoDup uniq /\
  uniq = take 10 (firstSeen values) /\
  (forall i j x y,
     i < j -> uniq !! i = Some x -> uniq !! j = Some y ->
     exists p q, p < q /\
       values !! p = Some x /\ (x ∉ take p values) /\
       values !! q = Some y /\ (y ∉ take q values)) /\
  (forall p v,
     values !! p = Some v ->
     length (firstSeen (take p values)) < 10 ->
     v ∈ uniq) /\
  length (sampledRows data) <= SAMPLE_ROWS.
Proof.
  intros Hsrc Hlen Hcol values uniq.
  split; [by rewrite (dictCell_returns ss data col 5 header)|].
  split; [subst uniq; rewrite uniqueList_firstSeen, length_take; lia|].
  split.
  { subst uniq. rewrite uniqueList_firstSeen.
    eapply sublist_NoDup; [apply NoDup_firstSeen|apply sublist_take]. }
  split; [apply uniqueList_firstSeen|].
  split; [apply uniqueList_order|].
  split; [apply uniqueList_keeps|].
  unfold sampledRows, slice. rewrite length_take. unfold SAMPLE_ROWS. lia.
Qed.

(** C6: the missing count of a row and the number of non-missing sampled
    values of its column add up to the number of sampled rows; the
    non-missing values are those that are neither the empty text nor the
    absent marker, and the count is the number of the others. *)
Theorem missingCount_partition (ss : gmap string Sheet) (data : Sheet)
    (col : nat) (header : Value) :
  ss !! sourceSheetName = Some data ->
  2 <= length data ->
  headersOf data !! col = Some header ->
  let rows := sampledRows data in
  let values := columnValues rows col in
  dictCell (createDataDictionary ss).2 col 4 =
    Some (VNumber (NumberOfNat (missingCount rows col))) /\
  missingCount rows col + length (nonEmpty values) = length rows /\
  (forall v, v ∈ nonEmpty values <-> v ∈ values /\ ~ isMissing v) /\
  missingCount rows col = length (filter isMissing values).
Proof.
  intros Hsrc Hlen Hcol rows values.
  assert (nonEmpty values = filter (fun v => ~ isMissing v) values) as Hne.
  { apply list_filter_iff. intros v. unfold isMissing. tauto. }
  assert (length values = length rows) as Hrows
    by apply length_map.
  pose proof (length_filter (fun v => ~ isMissing v) values) as Hle.
  pose proof (Permutation_length (filter_app_complement isMissing values))
    as Hsum.
  rewrite length_app in Hsum.
  split; [by rewrite (dictCell_returns ss data col 4 header)|].
  unfold missingCount. fold rows values. rewrite Hne.
  split; [lia|]. split; [|lia].
  intros v. rewrite list_elem_of_filter. tauto.
Qed.

(** C7: on a data set with a header row and no data row the script throws
    "Data sheet has no rows." and leaves the workbook as it found it: no
    row of the dictionary is written. *)
Theorem createDataDictionary_no_data_rows (ss : gmap string Sheet)
    (headers : Row) :
  ss !! sourceSheetName = Some [headers] ->
  createDataDictionary ss = (Thrown "Data sheet has no rows.", ss) /\
  (createDataDictionary ss).2 !! dictSheetName = ss !! dictSheetName.
Proof.
  intros Hsrc.
  rewrite (createDataDictionary_throws ss [headers]) by (done || simpl; lia).
  done.
Qed.

(** C8: on a data set with at least one data row the script returns and
    writes, below the title row, exactly one row per header, the row at
    each position naming the header at that position. *)
Theorem records_follow_headers (ss : gmap string Sheet) (data : Sheet) :
  ss !! sourceSheetName = Some data ->
  2 <= length data ->
  exists records : Sheet,
    createDataDictionary ss =
      (Returned tt, <[dictSheetName := dictHeaders :: records]> ss) /\
    length records = length (headersOf data) /\
    forall col, records !! col ≫= (fun r => r !! 0) = headersOf data !! col.
Proof.
  intros Hsrc Hlen. eexists. split; [by apply createDataDictionary_returns|].
  split; [apply length_imap|].
  intros col. rewrite list_lookup_imap.
  by destruct (headersOf data !! col).
Qed.

(** C2, as the code has it: in the sign-up scenario the script types each
    column by what the host's date parser makes of its three texts, one
    column apart from the other. [signup_date] is typed "String" when the
    parser turns down "not-a-date", and [active] when it turns down one of
    "yes", "no" and "maybe". [id] is typed "Numeric" when the parser turns
    down one of "1", "2" and "3", and "Date" when it reads all three as
    dates. *)
Theorem signup_scenario_types :
  let out := createDataDictionary signupWorkbook in
  out.1 = Returned tt /\
  dictCell out.2 0 0 = Some (VString "id") /\
  dictCell out.2 1 0 = Some (VString "signup_date") /\
  dictCell out.2 2 0 = Some (VString "active") /\
  (isValidDate "not-a-date" = false ->
   dictCell out.2 1 1 = Some (VString "String")) /\
  (isValidDate "yes" && isValidDate "no" && isValidDate "maybe" = false ->
   dictCell out.2 2 1 = Some (VString "String")) /\
  (isValidDate "1" && isValidDate "2" && isValidDate "3" = false ->
   dictCell out.2 0 1 = Some (VString "Numeric")) /\
  (isValidDate "1" && isValidDate "2" && isValidDate "3" = true ->
   dictCell out.2 0 1 = Some (VString "Date")).
Proof.
  intros out.
  assert (signupWorkbook !! sourceSheetName = Some signupData) as Hsrc
    by apply lookup_singleton_eq.
  assert (2 <= length signupData) as Hlen by (simpl; lia).
  split; [subst out; by rewrite (createDataDictionary_returns _ _ Hsrc Hlen)|].
  subst out.
  rewrite (dictCell_returns _ _ 0 0 (VString "id") Hsrc Hlen eq_refl),
    (dictCell_returns _ _ 0 1 (VString "id") Hsrc Hlen eq_refl),
    (dictCell_returns _ _ 1 0 (VString "signup_date") Hsrc Hlen eq_refl),
    (dictCell_returns _ _ 1 1 (VString "signup_date") Hsrc Hlen eq_refl),
    (dictCell_returns _ _ 2 0 (VString "active") Hsrc Hlen eq_refl),
    (dictCell_returns _ _ 2 1 (VString "active") Hsrc Hlen eq_refl).
  clear Hsrc Hlen. cbn [dictRow lookup list_lookup].
  assert (nonEmpty (columnValues (sampledRows signupData) 0) =
          map VString ["1"; "2"; "3"]) as -> by (vm_compute; reflexivity).
  assert (nonEmpty (columnValues (sampledRows signupData) 1) =
          map VString ["2024-01-05"; "not-a-date"; "2024-03-10"]) as ->
    by (vm_compute; reflexivity).
  assert (nonEmpty (columnValues (sampledRows signupData) 2) =
          map VString ["yes"; "no"; "maybe"]) as -> by (vm_compute; reflexivity).
  unfold dataTypeCell. rewrite !inferType_nonempty by done.
  rewrite !inspectAll_flags.
  cbn [map forallb dateOk numOk boolOk isDate isNum isBool].
  rewrite !andb_true_r, !andb_assoc.
  do 3 (split; [reflexivity|]).
  split; [intros Hsd; rewrite Hsd, andb_false_r; reflexivity|].
  split; [intros Hact; rewrite Hact; reflexivity|].
  split; intros Hid; rewrite Hid; reflexivity.
Qed.

End Facts.

(** * The claims on concrete workbooks *)

(** A column of boolean words falls through to the third case. *)
Lemma inferType_precedence_witness :
  @inferType isoHost (map VString ["yes"; "NO"]) = Some "Boolean".
Proof.
  assert (map (@VString isoHost) ["yes"; "NO"] <> []) as Hne by discriminate.
  destruct (inferType_precedence _ Hne) as (_ & _ & Hbool & _).
  apply Hbool; reflexivity.
Defined.

(** Swapping a date text and a number text. *)
Lemma inferType_Permutation_witness :
  map (@VString isoHost) ["2024-01-05"; "12"] ≡ₚ map VString ["12"; "2024-01-05"] /\
  @inferType isoHost (map VString ["2024-01-05"; "12"]) =
  @inferType isoHost (map VString ["12"; "2024-01-05"]).
Proof.
  split; [apply perm_swap|]. apply inferType_Permutation, perm_swap.
Defined.

(** Two boolean cells. *)
Lemma inferType_booleans_witness :
  @inferType isoHost [VBoolean true; VBoolean false] = Some "Date".
Proof.
  apply (inferType_booleans (host := isoHost) [VBoolean true; VBoolean false]).
  - discriminate.
  - repeat constructor; eexists; reflexivity.
Defined.

(** Two number cells. *)
Lemma inferType_numbers_witness :
  @inferType isoHost [@VNumber isoHost 3%Z; @VNumber isoHost 4%Z] =
  Some "Date".
Proof.
  apply (inferType_numbers (host := isoHost)
           [@VNumber isoHost 3%Z; @VNumber isoHost 4%Z]).
  - discriminate.
  - repeat constructor; eexists; reflexivity.
Defined.

(** The column [code]: "a" is seen twice, the empty cell is missing. *)
Lemma uniqueValues_sample_witness :
  dictCell (@createDataDictionary isoHost codesWorkbook).2 0 5 =
    Some (VString "a, b, c") /\
  NoDup (@uniqueList isoHost
           (nonEmpty (columnValues (sampledRows codesData) 0))).
Proof.
  assert (@codesWorkbook isoHost !! sourceSheetName = Some codesData) as Hsrc
    by reflexivity.
  assert (2 <= length (@codesData isoHost)) as Hlen by (simpl; lia).
  assert (headersOf (@codesData isoHost) !! 0 = Some (VString "code")) as Hcol
    by reflexivity.
  destruct (uniqueValues_sample _ _ 0 _ Hsrc Hlen Hcol) as (Hcell & _ & Hnd & _).
  split; [exact Hcell|exact Hnd].
Defined.

(** The column [code]: one missing cell among five sampled rows. *)
Lemma missingCount_partition_witness :
  dictCell (@createDataDictionary isoHost codesWorkbook).2 0 4 =
    Some (@VNumber isoHost 1%Z) /\
  @missingCount isoHost (sampledRows codesData) 0 + 4 = 5.
Proof.
  assert (@codesWorkbook isoHost !! sourceSheetName = Some codesData) as Hsrc
    by reflexivity.
  assert (2 <= length (@codesData isoHost)) as Hlen by (simpl; lia).
  assert (headersOf (@codesData isoHost) !! 0 = Some (VString "code")) as Hcol
    by reflexivity.
  destruct (missingCount_partition _ _ 0 _ Hsrc Hlen Hcol) as (Hcell & Hsum & _).
  split; [exact Hcell|exact Hsum].
Defined.

(** A source sheet that holds its header row only. *)
Lemma createDataDictionary_no_data_rows_witness :
  @createDataDictionary isoHost headerOnlyWorkbook =
  (Thrown "Data sheet has no rows.", headerOnlyWorkbook).
Proof.
  apply (createDataDictionary_no_data_rows (host := isoHost) headerOnlyWorkbook
           (map VString ["id"; "signup_date"; "active"])).
  reflexivity.
Defined.

(** The three rows written for the sign-up scenario. *)
Lemma records_follow_headers_witness :
  exists records : Sheet,
    @createDataDictionary isoHost signupWorkbook =
      (Returned tt, <[dictSheetName := dictHeaders :: records]> signupWorkbook) /\
    length records = 3 /\
    forall col,
      records !! col ≫= (fun r => r !! 0) =
      map (@VString isoHost) ["id"; "signup_date"; "active"] !! col.
Proof.
  apply (records_follow_headers (host := isoHost) signupWorkbook signupData).
  - reflexivity.
  - simpl. lia.
Defined.

(** The sign-up scenario on a host that parses ISO dates only, and on one
    that also reads lone month numbers as dates. *)
Lemma signup_scenario_types_witness :
  (let out := @createDataDictionary isoHost signupWorkbook in
   dictCell out.2 0 1 = Some (VString "Numeric") /\
   dictCell out.2 1 1 = Some (VString "String") /\
   dictCell out.2 2 1 = Some (VString "String")) /\
  (let out := @createDataDictionary monthNumberHost signupWorkbook in
   dictCell out.2 0 1 = Some (VString "Date") /\
   dictCell out.2 1 1 = Some (VString "String") /\
   dictCell out.2 2 1 = Some (VString "String")).
Proof.
  split.
  - destruct (signup_scenario_types (host := isoHost))
      as (_ & _ & _ & _ & Hdate & Hactive & Hid & _).
    split; [exact (Hid eq_refl)|]. split; [exact (Hdate eq_refl)|].
    exact (Hactive eq_refl).
  - destruct (signup_scenario_types (host := monthNumberHost))
      as (_ & _ & _ & _ & Hdate & Hactive & _ & Hid).
    split; [exact (Hid eq_refl)|]. split; [exact (Hdate eq_refl)|].
    exact (Hactive eq_refl).
Defined.

(** C2, as stated, fails on a host whose date parser reads "1", "2" and
    "3" as dates: the column [id] is then typed "Date", not "Numeric". *)
Lemma signup_scenario_id_typed_Date :
  let out := @createDataDictionary monthNumberHost signupWorkbook in
  out.1 = Returned tt /\
  dictCell out.2 0 0 = Some (VString "id") /\
  dictCell out.2 0 1 = Some (VString "Date") /\
  dictCell out.2 0 1 <> Some (VString "Numeric").
Proof.
  repeat split; try reflexivity. discriminate.
Defined.

(** * Further properties of the script and of the type inference *)

Section ScriptFacts.

Context `{host : Host}.

Lemma sheet_names_differ : dictSheetName <> sourceSheetName.
Proof. discriminate. Qed.

(** The three ways a run can go. *)
Lemma createDataDictionary_cases (ss : gmap string Sheet) :
  (ss !! sourceSheetName = None /\
   createDataDictionary ss =
     (Thrown "Source sheet not found: EMR_Data", ss)) \/
  (exists data, ss !! sourceSheetName = Some data /\ length data < 2 /\
     createDataDictionary ss = (Thrown "Data sheet has no rows.", ss)) \/
  (exists data, ss !! sourceSheetName = Some data /\ 2 <= length data /\
     createDataDictionary ss =
       (Returned tt,
        <[dictSheetName :=
            dictHeaders ::
            imap (fun col header => dictRow (sampledRows data) header col)
                 (headersOf data)]> ss)).
Proof.
  destruct (ss !! sourceSheetName) as [data|] eqn:Hsrc.
  - right. destruct (decide (length data < 2)) as [Hlt|Hge].
    + left. exists data. by rewrite (createDataDictionary_throws ss data).
    + right. exists data.
      rewrite (createDataDictionary_returns ss data) by (done || lia).
      repeat split; (done || lia).
  - left. split; [done|].
    cbv beta iota zeta delta [createDataDictionary mbind Script_bind
                              getSheetByName].
    rewrite Hsrc. reflexivity.
Qed.

(** X1: without a source sheet the script throws "Source sheet not found:
    EMR_Data" and leaves the workbook as it found it. *)
Theorem createDataDictionary_no_source (ss : gmap string Sheet) :
  ss !! sourceSheetName = None ->
  createDataDictionary ss = (Thrown "Source sheet not found: EMR_Data", ss).
Proof.
  intros Hsrc.
  destruct (createDataDictionary_cases ss)
    as [[_ Hrun]|[(data & Hd & _)|(data & Hd & _)]]; [done|congruence..].
Qed.

(** X2: the script returns exactly when the source sheet exists and holds
    at least two rows; it has no other way to fail than the two throws. *)
Theorem createDataDictionary_returns_iff (ss : gmap string Sheet) :
  (createDataDictionary ss).1 = Returned tt <->
  exists data, ss !! sourceSheetName = Some data /\ 2 <= length data.
Proof.
  destruct (createDataDictionary_cases ss)
    as [[Hnone Hrun]|[(data & Hd & Hlen & Hrun)|(data & Hd & Hlen & Hrun)]];
    rewrite Hrun; cbn [fst]; split; try done.
  - intros (data & Hd & _). congruence.
  - intros (data' & Hd' & Hlen'). assert (data' = data) by congruence. subst. lia.
  - intros _. by exists data.
Qed.

(** X3: whatever the outcome, the script changes no sheet but the
    dictionary sheet; the source sheet in particular is only read. *)
Theorem createDataDictionary_other_sheets (ss : gmap string Sheet)
    (name : string) :
  name <> dictSheetName ->
  (createDataDictionary ss).2 !! name = ss !! name.
Proof.
  intros Hne.
  destruct (createDataDictionary_cases ss)
    as [[_ Hrun]|[(data & _ & _ & Hrun)|(data & _ & _ & Hrun)]];
    rewrite Hrun; cbn [snd]; [done..|].
  by rewrite lookup_insert_ne.
Qed.

(** X4: running the script a second time changes nothing: it ends the same
    way and leaves the workbook the first run left. *)
Theorem createDataDictionary_idempotent (ss : gmap string Sheet) :
  createDataDictionary (createDataDictionary ss).2 = createDataDictionary ss.
Proof.
  destruct (createDataDictionary_cases ss)
    as [[_ Hrun]|[(data & _ & _ & Hrun)|(data & Hd & Hlen & Hrun)]];
    rewrite Hrun; cbn [snd]; [done..|].
  rewrite (createDataDictionary_returns _ data).
  - by rewrite insert_insert_eq.
  - rewrite lookup_insert_ne by apply sheet_names_differ. done.
  - done.
Qed.

(** X5: what the dictionary sheet held before does not matter: a run over
    a workbook with a left-over dictionary sheet ends as a run over the
    workbook without it. *)
Theorem createDataDictionary_discards_old (ss : gmap string Sheet)
    (data old : Sheet) :
  ss !! sourceSheetName = Some data ->
  2 <= length data ->
  createDataDictionary (<[dictSheetName := old]> ss) = createDataDictionary ss.
Proof.
  intros Hsrc Hlen.
  rewrite (createDataDictionary_returns ss data) by done.
  rewrite (createDataDictionary_returns _ data).
  - by rewrite insert_insert_eq.
  - rewrite lookup_insert_ne by apply sheet_names_differ. done.
  - done.
Qed.

(** The sampled rows are the data rows 1 to 10 of the grid. *)
Lemma sampledRows_lookup (data : Sheet) (i : nat) :
  sampledRows data !! i = if decide (i < SAMPLE_ROWS) then data !! S i else None.
Proof.
  unfold sampledRows, slice, SAMPLE_ROWS.
  replace (1 + 10 - 1) with 10 by lia.
  destruct (decide (i < 10)) as [Hlt|Hge].
  - by rewrite lookup_take_lt, lookup_drop.
  - apply lookup_take_ge. lia.
Qed.

(** X6: the script samples the first ten data rows and no others: row [i]
    of the sample is row [i + 1] of the grid, and the sample has
    [min 10 (n - 1)] rows for a grid of [n] rows. *)
Theorem sampledRows_prefix (data : Sheet) :
  length (sampledRows data) = Nat.min SAMPLE_ROWS (length data - 1) /\
  (forall i, i < SAMPLE_ROWS -> sampledRows data !! i = data !! S i) /\
  (forall i, SAMPLE_ROWS <= i -> sampledRows data !! i = None).
Proof.
  split.
  - unfold sampledRows, slice, SAMPLE_ROWS.
    rewrite length_take, length_drop. lia.
  - split; intros i Hi; rewrite sampledRows_lookup.
    + by rewrite decide_True.
    + rewrite decide_False; [done|lia].
Qed.

(** X7: rows past the tenth data row have no influence: two grids that
    agree on their first eleven rows give the same dictionary sheet. *)
Theorem createDataDictionary_reads_prefix (ss1 ss2 : gmap string Sheet)
    (data1 data2 : Sheet) :
  ss1 !! sourceSheetName = Some data1 ->
  ss2 !! sourceSheetName = Some data2 ->
  2 <= length data1 ->
  take (1 + SAMPLE_ROWS) data1 = take (1 + SAMPLE_ROWS) data2 ->
  (createDataDictionary ss1).2 !! dictSheetName =
  (createDataDictionary ss2).2 !! dictSheetName.
Proof.
  intros Hs1 Hs2 Hlen Htake.
  assert (2 <= length data2) as Hlen2.
  { apply (f_equal length) in Htake. rewrite !length_take in Htake.
    unfold SAMPLE_ROWS in Htake. lia. }
  assert (sampledRows data1 = sampledRows data2) as Hrows.
  { unfold sampledRows, slice.
    replace (1 + SAMPLE_ROWS - 1) with SAMPLE_ROWS by lia.
    by rewrite !take_drop_commute, Htake. }
  assert (headersOf data1 = headersOf data2) as Hheaders.
  { unfold headersOf.
    rewrite <- (lookup_take_lt data1 (1 + SAMPLE_ROWS) 0) by (simpl; lia).
    rewrite <- (lookup_take_lt data2 (1 + SAMPLE_ROWS) 0) by (simpl; lia).
    by rewrite Htake. }
  rewrite (createDataDictionary_returns ss1 data1),
    (createDataDictionary_returns ss2 data2) by done.
  cbn [snd]. by rewrite !lookup_insert_eq, Hrows, Hheaders.
Qed.

End ScriptFacts.

Section RowFacts.

Context `{host : Host}.

Lemma nonEmpty_not_missing (values : list Value) :
  nonEmpty values = filter (fun v => ~ isMissing v) values.
Proof. apply list_filter_iff. intros v. unfold isMissing. tauto. Qed.

Lemma nonEmpty_nil (values : list Value) :
  nonEmpty values = [] <-> Forall isMissing values.
Proof.
  rewrite nonEmpty_not_missing.
  induction values as [|v values IH]; [by split; [constructor|]|].
  rewrite filter_cons, Forall_cons. destruct (decide (~ isMissing v)) as [Hv|Hv].
  - split; [done|]. intros [Hm _]. by destruct Hv.
  - rewrite IH. split; [|by intros [_ ?]].
    intros Hall. split; [|done]. by destruct (decide (isMissing v)).
Qed.

(** The first non-missing value, if there is one, and the missing values
    before it. *)
Lemma nonEmpty_head (values : list Value) :
  match nonEmpty values with
  | [] => Forall isMissing values
  | e :: _ =>
      exists p, values !! p = Some e /\ ~ isMissing e /\
                Forall isMissing (take p values)
  end.
Proof.
  destruct (nonEmpty values) as [|e rest] eqn:Hne; [by apply nonEmpty_nil|].
  rewrite nonEmpty_not_missing in Hne. revert Hne.
  induction values as [|v values IH]; [done|].
  rewrite filter_cons. destruct (decide (~ isMissing v)) as [Hv|Hv].
  - intros [= -> _]. exists 0. repeat split; [done|]. constructor.
  - intros Hne. destruct (IH Hne) as (p & Hp & He & Hbefore).
    exists (S p). repeat split; [done..|]. simpl. constructor; [|done].
    by destruct (decide (isMissing v)).
Qed.

Lemma length_firstSeen (values : list Value) :
  length (firstSeen values) <= length values.
Proof.
  induction values as [|v values IH]; simpl; [lia|].
  pose proof (length_filter (fun w => w <> v) (firstSeen values)). lia.
Qed.

Lemma length_sampledRows (data : Sheet) :
  length (sampledRows data) <= SAMPLE_ROWS.
Proof. unfold sampledRows, slice. rewrite length_take. lia. Qed.

Lemma dataTypeCell_undefined (values : list Value) :
  dataTypeCell values = VUndefined <-> values = [].
Proof.
  split; [|by intros ->]. destruct values as [|v values]; [done|].
  unfold dataTypeCell. rewrite inferType_nonempty by done. discriminate.
Qed.

(** X8: the example cell of a row is the first sampled value of the column
    that is not missing, every sampled value before it being missing; when
    all sampled values are missing it is the empty text. *)
Theorem example_is_first_non_missing (ss : gmap string Sheet) (data : Sheet)
    (col : nat) (header : Value) :
  ss !! sourceSheetName = Some data ->
  2 <= length data ->
  headersOf data !! col = Some header ->
  let values := columnValues (sampledRows data) col in
  exists e, dictCell (createDataDictionary ss).2 col 3 = Some e /\
    ((Forall isMissing values /\ e = VString "") \/
     (exists p, values !! p = Some e /\ ~ isMissing e /\
                Forall isMissing (take p values))).
Proof.
  intros Hsrc Hlen Hcol values.
  exists (exampleCell (nonEmpty values)).
  split; [by rewrite (dictCell_returns ss data col 3 header)|].
  pose proof (nonEmpty_head values) as Hhead.
  destruct (nonEmpty values) as [|e rest]; [by left|by right].
Qed.

(** X9: the type cell of a row is undefined exactly when every sampled
    value of the column is missing; the row of such a column has the empty
    text as example and as sample, and counts every sampled row as
    missing. *)
Theorem all_missing_column (ss : gmap string Sheet) (data : Sheet)
    (col : nat) (header : Value) :
  ss !! sourceSheetName = Some data ->
  2 <= length data ->
  headersOf data !! col = Some header ->
  let values := columnValues (sampledRows data) col in
  let out := (createDataDictionary ss).2 in
  (dictCell out col 1 = Some VUndefined <-> Forall isMissing values) /\
  (Forall isMissing values ->
   dictCell out col 3 = Some (VString "") /\
   dictCell out col 4 =
     Some (VNumber (NumberOfNat (length (sampledRows data)))) /\
   dictCell out col 5 = Some (VString "")).
Proof.
  intros Hsrc Hlen Hcol values out. subst out.
  rewrite !(dictCell_returns ss data col _ header) by done.
  cbn [dictRow lookup list_lookup]. fold values. split.
  - rewrite <- nonEmpty_nil, <- dataTypeCell_undefined.
    split; [by intros [= ->]|by intros ->].
  - intros Hall. apply nonEmpty_nil in Hall.
    unfold missingCount. fold values. rewrite Hall.
    repeat split. cbn [length]. do 3 f_equal.
    subst values. unfold columnValues. rewrite length_map. lia.
Qed.

(** X10: in the script the cut to ten entries never drops a value: the
    sample of a row lists every distinct non-missing sampled value of its
    column, and its first entry, if any, is the example value. *)
Theorem sample_is_complete (ss : gmap string Sheet) (data : Sheet)
    (col : nat) (header : Value) :
  ss !! sourceSheetName = Some data ->
  2 <= length data ->
  headersOf data !! col = Some header ->
  let values := nonEmpty (columnValues (sampledRows data) col) in
  dictCell (createDataDictionary ss).2 col 5 =
    Some (VString (join ", " (firstSeen values))) /\
  uniqueList values = firstSeen values /\
  (forall v, v ∈ uniqueList values <-> v ∈ values) /\
  (values <> [] -> uniqueList values !! 0 = Some (exampleCell values)).
Proof.
  intros Hsrc Hlen Hcol values.
  assert (uniqueList values = firstSeen values) as Huniq.
  { rewrite uniqueList_firstSeen. apply take_ge.
    pose proof (length_firstSeen values).
    pose proof (length_filter (fun v => v <> VString "" /\ v <> VNull)
                  (columnValues (sampledRows data) col)) as Hf.
    fold (nonEmpty (columnValues (sampledRows data) col)) in Hf. fold values in Hf.
    unfold columnValues in Hf. rewrite length_map in Hf.
    pose proof (length_sampledRows data). unfold SAMPLE_ROWS in *. lia. }
  split.
  { rewrite (dictCell_returns ss data col 5 header) by done.
    cbn [dictRow lookup list_lookup]. fold values.
    unfold uniqueValues. by rewrite Huniq. }
  split; [done|]. split.
  - intros v. rewrite Huniq. apply elem_of_firstSeen.
  - rewrite Huniq. by destruct values.
Qed.

(** X11: the dictionary sheet is a grid of six columns: the title row and
    one row of six cells per header, whose description cell is empty. *)
Theorem dictionary_sheet_shape (ss : gmap string Sheet) (data : Sheet) :
  ss !! sourceSheetName = Some data ->
  2 <= length data ->
  exists grid,
    (createDataDictionary ss).2 !! dictSheetName = Some grid /\
    grid !! 0 = Some dictHeaders /\
    length grid = S (length (headersOf data)) /\
    Forall (fun row => length row = 6) grid /\
    Forall (fun row => row !! 2 = Some (VString "")) (drop 1 grid).
Proof.
  intros Hsrc Hlen. rewrite (createDataDictionary_returns ss data) by done.
  eexists. cbn [snd]. rewrite lookup_insert_eq. split; [done|].
  split; [done|]. split; [by rewrite length_cons, length_imap|].
  split.
  - constructor; [done|]. apply Forall_forall. intros row Hrow.
    apply list_elem_of_lookup_1 in Hrow as [i Hi].
    rewrite list_lookup_imap in Hi.
    destruct (headersOf data !! i); by simplify_eq/=.
  - cbn [drop]. rewrite drop_0. apply Forall_forall. intros row Hrow.
    apply list_elem_of_lookup_1 in Hrow as [i Hi].
    rewrite list_lookup_imap in Hi.
    destruct (headersOf data !! i); by simplify_eq/=.
Qed.

Lemma inspectAll_neutral (values : list Value) :
  Forall (fun v => v = VUndefined) values -> inspectAll values = allTrue.
Proof.
  intros Hall. unfold inspectAll. generalize allTrue.
  induction Hall as [|v rest -> _ IH]; intros f; [done|]. apply IH.
Qed.

Lemma filter_none {A : Type} (P : A -> Prop) `{!forall x, Decision (P x)}
    (l : list A) :
  (forall x, x ∈ l -> ~ P x) -> filter P l = [].
Proof.
  induction l as [|x l IH]; intros HP; [done|].
  rewrite filter_cons_False by (apply HP; left).
  apply IH. intros y Hy. apply HP. by right.
Qed.

Lemma columnValues_short (rows : Sheet) (col : nat) :
  Forall (fun row => length row <= col) rows ->
  columnValues rows col = replicate (length rows) VUndefined.
Proof.
  induction 1 as [|row rows Hrow _ IH]; [done|]. simpl. f_equal; [|done].
  unfold cell. by rewrite lookup_ge_None_2.
Qed.

(** X12: a header with no cell under it in any sampled row: reading past
    the end of a row yields undefined, which the filter keeps and no branch
    of the type inference inspects, so the column is typed "Date" with
    undefined as example, no missing value and an empty sample text. *)
Theorem column_past_row_end (ss : gmap string Sheet) (data : Sheet)
    (col : nat) (header : Value) :
  ss !! sourceSheetName = Some data ->
  2 <= length data ->
  headersOf data !! col = Some header ->
  Forall (fun row => length row <= col) (sampledRows data) ->
  let out := (createDataDictionary ss).2 in
  dictCell out col 1 = Some (VString "Date") /\
  dictCell out col 3 = Some VUndefined /\
  dictCell out col 4 = Some (VNumber (NumberOfNat 0)) /\
  dictCell out col 5 = Some (VString "").
Proof.
  intros Hsrc Hlen Hcol Hshort out. subst out.
  rewrite !(dictCell_returns ss data col _ header) by done.
  cbn [dictRow lookup list_lookup].
  assert (exists n, columnValues (sampledRows data) col =
                    replicate (S n) VUndefined) as [n Hvalues].
  { rewrite (columnValues_short _ _ Hshort).
    pose proof (proj1 (sampledRows_prefix data)) as Hl.
    unfold SAMPLE_ROWS in Hl.
    destruct (length (sampledRows data)) as [|n]; [lia|]. by exists n. }
  assert (nonEmpty (replicate (S n) VUndefined) = replicate (S n) VUndefined)
    as Hne.
  { apply filter_all. intros v Hv%elem_of_replicate_inv. by subst. }
  unfold missingCount. rewrite Hvalues, Hne.
  assert (uniqueList (replicate (S n) VUndefined) = [VUndefined]) as Huniq.
  { rewrite uniqueList_firstSeen. simpl.
    replace (filter (fun w => w <> VUndefined) (firstSeen (replicate n VUndefined)))
      with (@nil Value); [done|].
    symmetry. apply filter_none. intros v Hin Hv. apply Hv.
    apply elem_of_firstSeen, elem_of_replicate_inv in Hin. done. }
  unfold uniqueValues. rewrite Huniq.
  unfold dataTypeCell. rewrite inferType_nonempty by done.
  rewrite inspectAll_neutral by (apply Forall_forall; intros v Hv;
                                 by apply elem_of_replicate_inv in Hv).
  repeat split. by rewrite Nat.sub_diag.
Qed.

End RowFacts.

Section TypeFacts.

Context `{host : Host}.

Lemma forallb_elem_of {A : Type} (p : A -> bool) (l : list A) :
  forallb p l = true <-> forall x, x ∈ l -> p x = true.
Proof.
  induction l as [|y l IH]; simpl.
  - split; [|done]. intros _ x Hx. by apply elem_of_nil in Hx.
  - rewrite andb_true_iff, IH. split.
    + intros [Hy Hl] x [->|Hx]%elem_of_cons; [done|by apply Hl].
    + intros Hall. split; [apply Hall; left|].
      intros x Hx. apply Hall. by right.
Qed.

Lemma forallb_elem_of_false {A : Type} (p : A -> bool) (l : list A) :
  forallb p l = false <-> exists x, x ∈ l /\ p x = false.
Proof.
  induction l as [|y l IH]; simpl.
  - split; [done|]. intros (x & Hx & _). by apply elem_of_nil in Hx.
  - rewrite andb_false_iff, IH. split.
    + intros [Hy|(x & Hx & Hp)]; [exists y|exists x]; split;
        (done || by left || by right).
    + intros (x & [->|Hx]%elem_of_cons & Hp); [by left|right; by exists x].
Qed.

(** What lets each hypothesis survive the loop. *)
Lemma isDate_survives (values : list Value) :
  isDate (inspectAll values) = true <->
  forall s, VString s ∈ values -> isValidDate s = true.
Proof.
  rewrite inspectAll_flags. cbn [isDate]. rewrite forallb_elem_of. split.
  - intros Hall s Hs. exact (Hall _ Hs).
  - intros Hall [s| | | | |] Hv; try reflexivity. by apply Hall.
Qed.

Lemma isNum_survives (values : list Value) :
  isNum (inspectAll values) = true <->
  (forall d, VDate d ∉ values) /\
  (forall s, VString s ∈ values -> Text.isNaN_parseFloat s = false).
Proof.
  rewrite inspectAll_flags. cbn [isNum]. rewrite forallb_elem_of. split.
  - intros Hall. split.
    + intros d Hd. by specialize (Hall _ Hd).
    + intros s Hs. specialize (Hall _ Hs). by apply negb_true_iff in Hall.
  - intros [Hdate Htext] [s| | |d| |] Hv; try reflexivity.
    + apply negb_true_iff. by apply Htext.
    + by destruct (Hdate d).
Qed.

Lemma isBool_survives (values : list Value) :
  isBool (inspectAll values) = true <->
  (forall x, VNumber x ∉ values) /\
  (forall d, VDate d ∉ values) /\
  (forall s, VString s ∈ values ->
             Text.includes booleanWords (Text.toLowerCase s) = true).
Proof.
  rewrite inspectAll_flags. cbn [isBool]. rewrite forallb_elem_of. split.
  - intros Hall. repeat split.
    + intros x Hx. by specialize (Hall _ Hx).
    + intros d Hd. by specialize (Hall _ Hd).
    + intros s Hs. exact (Hall _ Hs).
  - intros (Hnum & Hdate & Htext) [s|x| |d| |] Hv; try reflexivity.
    + by apply Htext.
    + by destruct (Hnum x).
    + by destruct (Hdate d).
Qed.

(** A text whose lower-case form starts like a boolean word starts no
    number. *)
Lemma boolean_initial_isNaN (c : ascii) (r : string) :
  Text.includes ["t"; "f"; "y"; "n"]
    (String (Text.lowerChar c) EmptyString) = true ->
  Text.isNaN_parseFloat (String c r) = true.
Proof.
  destruct c as [[] [] [] [] [] [] [] []];
    first [reflexivity | intros Hc; vm_compute in Hc; discriminate Hc].
Qed.

(** The boolean test and the number test exclude each other. *)
Lemma booleanWord_isNaN (s : string) :
  Text.includes booleanWords (Text.toLowerCase s) = true ->
  Text.isNaN_parseFloat s = true.
Proof.
  intros Hs. destruct s as [|c r]; [discriminate Hs|].
  apply boolean_initial_isNaN.
  unfold Text.includes in *. apply existsb_exists in Hs as (w & Hw & Heq).
  apply String.eqb_eq in Heq. cbn [Text.toLowerCase] in Heq.
  apply existsb_exists.
  unfold booleanWords in Hw. cbn [In] in Hw.
  destruct Hw as [<-|[<-|[<-|[<-|[]]]]]; injection Heq as Hc _; rewrite Hc;
    [exists "t"|exists "f"|exists "y"|exists "n"];
    (split; [cbn [In]; tauto|reflexivity]).
Qed.

(** X13: [inferType] answers "Date" exactly on the non-empty sequences all
    of whose texts are valid dates; values of any other tag never speak
    against it. *)
Theorem inferType_Date_iff (values : list Value) :
  inferType values = Some "Date" <->
  values <> [] /\ forall s, VString s ∈ values -> isValidDate s = true.
Proof.
  rewrite <- isDate_survives. split.
  - intros Hty. assert (values <> []) as Hne by (by intros ->). split; [done|].
    rewrite (inferType_nonempty _ Hne) in Hty.
    destruct (isDate (inspectAll values)); [done|].
    by destruct (isNum (inspectAll values)), (isBool (inspectAll values)).
  - intros [Hne Hd]. by rewrite (inferType_nonempty _ Hne), Hd.
Qed.

(** X14: [inferType] answers "Numeric" exactly on the non-empty sequences
    that hold a text that is no valid date, hold no date object, and all
    of whose texts start with a number. *)
Theorem inferType_Numeric_iff (values : list Value) :
  inferType values = Some "Numeric" <->
  values <> [] /\
  (exists s, VString s ∈ values /\ isValidDate s = false) /\
  (forall d, VDate d ∉ values) /\
  (forall s, VString s ∈ values -> Text.isNaN_parseFloat s = false).
Proof.
  rewrite <- isNum_survives. split.
  - intros Hty. assert (values <> []) as Hne by (by intros ->). split; [done|].
    rewrite (inferType_nonempty _ Hne) in Hty.
    destruct (isDate (inspectAll values)) eqn:Hd; [by simplify_eq|].
    destruct (isNum (inspectAll values)); [|by destruct (isBool _)].
    split; [|done]. rewrite inspectAll_flags in Hd. cbn [isDate] in Hd.
    apply forallb_elem_of_false in Hd as ([s| | | | |] & Hv & Hp);
      try discriminate Hp. by exists s.
  - intros (Hne & (s & Hs & Hinv) & Hn).
    rewrite (inferType_nonempty _ Hne), Hn.
    destruct (isDate (inspectAll values)) eqn:Hd; [|done].
    rewrite isDate_survives in Hd. specialize (Hd _ Hs). congruence.
Qed.

(** X15: [inferType] answers "Boolean" exactly on the non-empty sequences
    that hold neither a number nor a date object, all of whose texts are
    one of true, false, yes, no in any letter case, one of them being no
    valid date. *)
Theorem inferType_Boolean_iff (values : list Value) :
  inferType values = Some "Boolean" <->
  values <> [] /\
  (exists s, VString s ∈ values /\ isValidDate s = false) /\
  (forall x, VNumber x ∉ values) /\
  (forall d, VDate d ∉ values) /\
  (forall s, VString s ∈ values ->
             Text.includes booleanWords (Text.toLowerCase s) = true).
Proof.
  rewrite <- isBool_survives. split.
  - intros Hty. assert (values <> []) as Hne by (by intros ->). split; [done|].
    rewrite (inferType_nonempty _ Hne) in Hty.
    destruct (isDate (inspectAll values)) eqn:Hd; [by simplify_eq|].
    destruct (isNum (inspectAll values)); [by simplify_eq|].
    destruct (isBool (inspectAll values)); [|by simplify_eq].
    split; [|done]. rewrite inspectAll_flags in Hd. cbn [isDate] in Hd.
    apply forallb_elem_of_false in Hd as ([s| | | | |] & Hv & Hp);
      try discriminate Hp. by exists s.
  - intros (Hne & (s & Hs & Hinv) & Hb).
    rewrite (inferType_nonempty _ Hne), Hb.
    destruct (isDate (inspectAll values)) eqn:Hd.
    { rewrite isDate_survives in Hd. specialize (Hd _ Hs). congruence. }
    destruct (isNum (inspectAll values)) eqn:Hn; [|done].
    apply isNum_survives in Hn as [_ Hn]. specialize (Hn _ Hs).
    apply isBool_survives in Hb as (_ & _ & Hb). specialize (Hb _ Hs).
    apply booleanWord_isNaN in Hb. congruence.
Qed.

(** X16: a sequence that holds a date object is never typed "Numeric" or
    "Boolean", and one that holds a number is never typed "Boolean". *)
Theorem inferType_typed_values (values : list Value) :
  (forall d, VDate d ∈ values ->
     inferType values = Some "Date" \/ inferType values = Some "String") /\
  (forall x, VNumber x ∈ values -> inferType values <> Some "Boolean").
Proof.
  split.
  - intros d Hd. assert (values <> []) as Hne.
    { intros ->. by apply elem_of_nil in Hd. }
    rewrite (inferType_nonempty _ Hne).
    destruct (isDate (inspectAll values)); [by left|].
    destruct (isNum (inspectAll values)) eqn:Hn.
    { apply isNum_survives in Hn as [Hn _]. by destruct (Hn d). }
    destruct (isBool (inspectAll values)) eqn:Hb; [|by right].
    apply isBool_survives in Hb as (_ & Hb & _). by destruct (Hb d).
  - intros x Hx Hty. apply inferType_Boolean_iff in Hty as (_ & _ & Hn & _).
    by destruct (Hn x).
Qed.

(** X17: on a sequence that holds a text, the number and the boolean
    hypothesis never both survive: a boolean word starts no number. *)
Theorem numeric_excludes_boolean (values : list Value) (s : string) :
  VString s ∈ values ->
  ~ (isNum (inspectAll values) = true /\ isBool (inspectAll values) = true).
Proof.
  intros Hs [Hn Hb].
  apply isNum_survives in Hn as [_ Hn]. specialize (Hn _ Hs).
  apply isBool_survives in Hb as (_ & _ & Hb). specialize (Hb _ Hs).
  apply booleanWord_isNaN in Hb. congruence.
Qed.

Lemma inspectAll_same_elements (l l' : list Value) :
  (forall v, v ∈ l <-> v ∈ l') -> inspectAll l = inspectAll l'.
Proof.
  intros Hsame. rewrite !inspectAll_flags.
  assert (forall p : Value -> bool, forallb p l = forallb p l') as Hp.
  { intros p. apply eq_true_iff_eq. rewrite !forallb_elem_of.
    split; intros Hall x Hx; apply Hall; by apply Hsame. }
  by rewrite (Hp numOk), (Hp dateOk), (Hp boolOk).
Qed.

(** X18: the answer of [inferType] depends on which values occur, not on
    how often or where: two sequences with the same members get the same
    type. *)
Theorem inferType_same_elements (l l' : list Value) :
  (forall v, v ∈ l <-> v ∈ l') -> inferType l = inferType l'.
Proof.
  intros Hsame. destruct l as [|v l].
  - destruct l' as [|v' l']; [done|].
    exfalso. apply (elem_of_nil v'), Hsame. by left.
  - assert (l' <> []) as Hne'.
    { intros ->. apply (elem_of_nil v), Hsame. by left. }
    rewrite (inferType_nonempty (v :: l)), (inferType_nonempty l') by done.
    by rewrite (inspectAll_same_elements _ _ Hsame).
Qed.

(** X19: the type of a column can be read off its distinct values: the
    set the script builds for the sample gets the same type as the
    values it was built from. *)
Theorem inferType_new_Set (values : list Value) :
  inferType (new_Set values) = inferType values.
Proof.
  apply inferType_same_elements. intros v.
  rewrite new_Set_firstSeen. apply elem_of_firstSeen.
Qed.

(** X20: a hypothesis once dropped stays dropped: more values, before or
    after, never bring a flag back; a sequence typed "String" stays
    "String" however it is extended. *)
Theorem inferType_String_absorbs (l before after : list Value) :
  inferType l = Some "String" ->
  inferType (before ++ l ++ after) = Some "String".
Proof.
  intros Hty. assert (l <> []) as Hne by (by intros ->).
  assert (before ++ l ++ after <> []) as Hne'.
  { destruct before; [destruct l|]; done. }
  rewrite (inferType_nonempty _ Hne) in Hty.
  rewrite (inferType_nonempty _ Hne').
  rewrite inspectAll_flags in *. cbn [isDate isNum isBool] in *.
  rewrite !forallb_app.
  destruct (forallb dateOk l), (forallb numOk l), (forallb boolOk l);
    try discriminate Hty.
  by rewrite !andb_false_l, !andb_false_r.
Qed.

End TypeFacts.

(** * The further properties on concrete workbooks *)

(** A workbook without any sheet. *)
Lemma createDataDictionary_no_source_witness :
  @createDataDictionary isoHost ∅ =
  (Thrown "Source sheet not found: EMR_Data", ∅).
Proof. apply createDataDictionary_no_source. reflexivity. Defined.

(** The source sheet of the sign-up scenario after the run. *)
Lemma createDataDictionary_other_sheets_witness :
  (@createDataDictionary isoHost signupWorkbook).2 !! sourceSheetName =
  Some signupData.
Proof.
  etransitivity.
  - apply createDataDictionary_other_sheets. discriminate.
  - reflexivity.
Defined.

(** A dictionary sheet left over from an earlier run is replaced. *)
Lemma createDataDictionary_discards_old_witness :
  @createDataDictionary isoHost staleWorkbook =
  createDataDictionary codesWorkbook.
Proof.
  apply (createDataDictionary_discards_old (host := isoHost)
           codesWorkbook codesData).
  - reflexivity.
  - simpl. lia.
Defined.

(** Twelve data rows against the same grid cut after the tenth. *)
Lemma createDataDictionary_reads_prefix_witness :
  (@createDataDictionary isoHost longWorkbook).2 !! dictSheetName =
  (@createDataDictionary isoHost cutWorkbook).2 !! dictSheetName.
Proof.
  apply (createDataDictionary_reads_prefix (host := isoHost)
           longWorkbook cutWorkbook longData (take 11 longData)).
  - reflexivity.
  - reflexivity.
  - simpl. lia.
  - reflexivity.
Defined.

(** The column [code]: its example is its first cell. *)
Lemma example_is_first_non_missing_witness :
  exists e,
    dictCell (@createDataDictionary isoHost codesWorkbook).2 0 3 = Some e /\
    ((Forall isMissing (columnValues (sampledRows (@codesData isoHost)) 0) /\
      e = VString "") \/
     (exists p,
        columnValues (sampledRows (@codesData isoHost)) 0 !! p = Some e /\
        ~ isMissing e /\
        Forall isMissing
          (take p (columnValues (sampledRows (@codesData isoHost)) 0)))).
Proof.
  apply (example_is_first_non_missing (host := isoHost)
           codesWorkbook codesData 0 (VString "code")).
  - reflexivity.
  - simpl. lia.
  - reflexivity.
Defined.

(** The column [note], whose two sampled cells are empty. *)
Lemma all_missing_column_witness :
  let out := (@createDataDictionary isoHost blanksWorkbook).2 in
  dictCell out 0 1 = Some VUndefined /\
  dictCell out 0 3 = Some (VString "") /\
  dictCell out 0 4 = Some (@VNumber isoHost 2%Z) /\
  dictCell out 0 5 = Some (VString "").
Proof.
  assert (Forall (@isMissing isoHost)
            (columnValues (sampledRows blanksData) 0)) as Hall.
  { repeat constructor. }
  destruct (all_missing_column (host := isoHost) blanksWorkbook blanksData 0
              (VString "note") eq_refl ltac:(simpl; lia) eq_refl)
    as [Htype Hrest].
  split; [by apply Htype|]. exact (Hrest Hall).
Defined.

(** Ten distinct values in ten sampled rows: all are listed. *)
Lemma sample_is_complete_witness :
  dictCell (@createDataDictionary isoHost longWorkbook).2 0 5 =
  Some (VString "1, 2, 3, 4, 5, 6, 7, 8, 9, 10").
Proof.
  destruct (sample_is_complete (host := isoHost) longWorkbook longData 0
              (VString "n") eq_refl ltac:(simpl; lia) eq_refl)
    as [Hcell _].
  exact Hcell.
Defined.

(** The dictionary sheet of the sign-up scenario. *)
Lemma dictionary_sheet_shape_witness :
  exists grid,
    (@createDataDictionary isoHost signupWorkbook).2 !! dictSheetName =
      Some grid /\
    grid !! 0 = Some dictHeaders /\
    length grid = 4 /\
    Forall (fun row => length row = 6) grid /\
    Forall (fun row => row !! 2 = Some (VString "")) (drop 1 grid).
Proof.
  apply (dictionary_sheet_shape (host := isoHost) signupWorkbook signupData).
  - reflexivity.
  - simpl. lia.
Defined.

(** The header [b] of the ragged grid. *)
Lemma column_past_row_end_witness :
  let out := (@createDataDictionary isoHost raggedWorkbook).2 in
  dictCell out 1 1 = Some (VString "Date") /\
  dictCell out 1 3 = Some VUndefined /\
  dictCell out 1 4 = Some (@VNumber isoHost 0%Z) /\
  dictCell out 1 5 = Some (VString "").
Proof.
  apply (column_past_row_end (host := isoHost) raggedWorkbook raggedData 1
           (VString "b")).
  - reflexivity.
  - simpl. lia.
  - reflexivity.
  - repeat constructor.
Defined.

(** A boolean word next to a number text. *)
Lemma numeric_excludes_boolean_witness :
  ~ (isNum (@inspectAll isoHost (map VString ["yes"; "1"])) = true /\
     isBool (@inspectAll isoHost (map VString ["yes"; "1"])) = true).
Proof.
  apply (numeric_excludes_boolean (host := isoHost) _ "yes"). left.
Defined.

(** A repeated value and another order. *)
Lemma inferType_same_elements_witness :
  @inferType isoHost (map VString ["12"; "12"; "7"]) =
  @inferType isoHost (map VString ["7"; "12"]).
Proof.
  apply inferType_same_elements. intros v. simpl.
  rewrite !elem_of_cons, elem_of_nil. tauto.
Defined.

(** A free text between a number text and a boolean cell. *)
Lemma inferType_String_absorbs_witness :
  @inferType isoHost [VString "1"; VString "x"; VBoolean true] =
  Some "String".
Proof.
  apply (inferType_String_absorbs (host := isoHost)
           [VString "x"] [VString "1"] [VBoolean true]).
  reflexivity.
Defined.

(** * Date cells in the sample of distinct values *)

Section SampleFacts.

Context `{host : Host}.

Lemma filter_ext_elem {A : Type} (P Q : A -> Prop)
    `{!forall x, Decision (P x)} `{!forall x, Decision (Q x)} (l : list A) :
  (forall x, x ∈ l -> P x <-> Q x) -> filter P l = filter Q l.
Proof.
  induction l as [|x l IH]; intros Hext; [done|].
  assert (filter P l = filter Q l) as Hl.
  { apply IH. intros y Hy. apply Hext. by right. }
  rewrite !filter_cons, Hl.
  destruct (decide (P x)) as [HP|HP], (decide (Q x)) as [HQ|HQ]; try done.
  - destruct HQ. apply Hext; [left|done].
  - destruct HP. apply Hext; [left|done].
Qed.

Lemma elem_of_distinctValues_1 (values : list Value) (v : Value) :
  v ∈ distinctValues values -> v ∈ values.
Proof.
  induction values as [|w values IH]; simpl; [done|].
  rewrite !elem_of_cons, list_elem_of_filter. intros [->|[_ Hv]]; auto.
Qed.

(** Where no two date objects of a sequence hold the same time value,
    value equality and the equality of a [Set] agree on its members. *)
Lemma sameValue_eq (values : list Value) (v w : Value) :
  (forall d e, VDate d ∈ values -> VDate e ∈ values ->
               Date_getTime d = Date_getTime e -> d = e) ->
  v ∈ values -> w ∈ values -> sameValue v w <-> v = w.
Proof.
  intros Hdates Hv Hw. destruct v as [s|x|b|d| |], w as [s'|x'|b'|e| |];
    simpl; try done.
  split; [|by intros [= ->]]. intros Ht. f_equal. by apply Hdates.
Qed.

Lemma firstSeen_distinctValues (values : list Value) :
  (forall d e, VDate d ∈ values -> VDate e ∈ values ->
               Date_getTime d = Date_getTime e -> d = e) ->
  firstSeen values = distinctValues values.
Proof.
  induction values as [|v values IH]; intros Hdates; [done|]. simpl.
  assert (firstSeen values = distinctValues values) as Hrest.
  { apply IH. intros d e Hd He. apply Hdates; by right. }
  rewrite Hrest. f_equal. apply filter_ext_elem. intros w Hw.
  apply elem_of_distinctValues_1 in Hw.
  rewrite (sameValue_eq (v :: values) w v Hdates); [done|by right|by left].
Qed.

(** X21: on a column in which no two date objects hold the same time value
    (a column without date cells, for one) the sample is the deduplication
    by value equality cut to ten entries, and no two of its entries are
    the same value. *)
Theorem uniqueList_by_value (values : list Value) :
  (forall d e, VDate d ∈ values -> VDate e ∈ values ->
               Date_getTime d = Date_getTime e -> d = e) ->
  uniqueList values = take 10 (distinctValues values) /\
  (forall i j x y,
     i <> j -> uniqueList values !! i = Some x ->
     uniqueList values !! j = Some y -> ~ sameValue x y).
Proof.
  intros Hdates. split.
  { by rewrite uniqueList_firstSeen, firstSeen_distinctValues. }
  rewrite uniqueList_firstSeen. intros i j x y Hij Hx Hy Hsame.
  apply lookup_take_Some in Hx as [Hx _], Hy as [Hy _].
  apply Hij. eapply NoDup_lookup; [apply NoDup_firstSeen|exact Hx|].
  assert (x = y) as ->; [|done].
  apply (sameValue_eq values x y Hdates); [| |done];
    eapply elem_of_firstSeen, list_elem_of_lookup_2; eassumption.
Qed.

End SampleFacts.

(** C5, evaluated on the code: a column of two date cells that hold the
    same day. The two cells are two date objects, which the [Set] keeps
    apart, so the sample lists the day twice and the cell repeats its
    text, where deduplication by value equality leaves one entry. *)
Theorem uniqueValues_repeats_dates :
  let values := nonEmpty (columnValues (sampledRows visitsData) 0) in
  values = [firstVisit; secondVisit] /\
  sameValue firstVisit secondVisit /\
  uniqueList values = [firstVisit; secondVisit] /\
  dictCell (createDataDictionary visitsWorkbook).2 0 5 =
    Some (VString "T1704412800000, T1704412800000") /\
  distinctValues values = [firstVisit] /\
  uniqueList values <> take 10 (distinctValues values).
Proof.
  repeat split; try reflexivity. discriminate.
Qed.

(** A column of texts with a repeated value. *)
Lemma uniqueList_by_value_witness :
  @uniqueList isoHost (map VString ["a"; "b"; "a"; "c"]) =
  take 10 (distinctValues (map VString ["a"; "b"; "a"; "c"])).
Proof.
  apply (uniqueList_by_value (host := isoHost)).
  intros d e Hd. exfalso. revert Hd.
  cbn [map]. rewrite !elem_of_cons, elem_of_nil.
  intros [|[|[|[|[]]]]]; discriminate.
Defined.
